(** * Graph_JRE_Job.py: selection of one job's JES2 resource series

    A shallow embedding of the data-selection part of
    [zOS-PFA/Graph_JRE_Job.py]: normalisation of the command-line
    arguments (lines 54-56, 111-112, 118-120), the input checks (lines
    91-92, 115-116), [process_data] (lines 125-134) and [get_latest_time]
    (lines 164-177).

    The two data frames are lists of rows in file order, as [pd.read_csv]
    with its converters leaves them: the [str] columns are strings, the
    [int] columns are integers.  Strings are the byte strings of the
    Standard Library; [upper] is Python's [str.upper] on ASCII. *)

From Stdlib Require Import List String Ascii ZArith Bool Arith Lia.
From Stdlib Require Import OrderedTypeEx.
Import ListNotations.

Open Scope string_scope.

(** ** Python string helpers *)

(** [str.upper] on one ASCII character: ['a'..'z'] move to ['A'..'Z']. *)
Definition upper_ascii (c : ascii) : ascii :=
  let n := nat_of_ascii c in
  if (97 <=? n)%nat && (n <=? 122)%nat then ascii_of_nat (n - 32) else c.

Fixpoint upper (s : string) : string :=
  match s with
  | EmptyString => EmptyString
  | String c s' => String (upper_ascii c) (upper s')
  end.

Fixpoint spaces (n : nat) : string :=
  match n with
  | O => EmptyString
  | S n' => String " "%char (spaces n')
  end.

(** [s.ljust(width)]: blanks are appended up to [width]; a string that is
    already that long is returned as it is. *)
Definition ljust (width : nat) (s : string) : string :=
  s ++ spaces (width - String.length s).

(** ** Module-level constants (lines 40-47) *)

Definition keys : list (string * string) :=
  [("JQE", "Q"); ("SPOOL", "S"); ("BERT", "B"); ("JOE", "J")].

Definition user_keys : list string := ["JQE"; "SPOOL"; "BERT"; "JOE"].

Definition COLUMN_CHAR_LEN : nat := 8.

(** [d[k]] on a dict written as an association list. *)
Fixpoint dict_get {V : Type} (d : list (string * V)) (k : string) : option V :=
  match d with
  | [] => None
  | (k', v) :: d' => if k' =? k then Some v else dict_get d' k
  end.

(** ** The data frames *)

(** One row of the observation frame.  [D] is the type of the [Date_Time]
    cell (a string as loaded, a timestamp after line 130) and [C] the type
    of the [Capacity] cell ([unit] while the column does not exist,
    [option Z] once line 121 has filled it with NaN, [Z] after line 129). *)
Record row (D C : Type) : Type := mk_row {
  Key : string;
  JobName : string;
  TaskId : string;
  Start_Time : string;
  STCK_Time : Z;
  Current_Usage : Z;
  Date_Time : D;
  Capacity : C
}.

Arguments mk_row {D C}.
Arguments Key {D C}.
Arguments JobName {D C}.
Arguments TaskId {D C}.
Arguments Start_Time {D C}.
Arguments STCK_Time {D C}.
Arguments Current_Usage {D C}.
Arguments Date_Time {D C}.
Arguments Capacity {D C}.

(** The observation frame as [pd.read_csv] returns it (line 95). *)
Definition asid_row : Type := row string unit.

Definition asid (k j t st : string) (stck usage : Z) (dt : string) : asid_row :=
  mk_row k j t st stck usage dt tt.

(** One row of the capacity frame (line 102). *)
Record capacity_row : Type := mk_capacity {
  Resource : string;
  Capacity_of : Z
}.

(** A calendar timestamp, the value [pd.to_datetime] produces. *)
Record datetime : Type := mk_datetime {
  year : Z; month : Z; day : Z; hour : Z; minute : Z; second : Z
}.

(** A cell of [data_file.values], the object array of line 115. *)
Inductive cell : Type :=
| CStr (s : string)
| CInt (z : Z).

(** Python's [==] between a cell and a [str]: an [int] never equals one. *)
Definition cell_eq_str (c : cell) (s : string) : bool :=
  match c with
  | CStr s' => s' =? s
  | CInt _ => false
  end.

(** The seven cells of one loaded row, in column order (line 42). *)
Definition values (r : asid_row) : list cell :=
  [CStr (Key r); CStr (JobName r); CStr (TaskId r); CStr (Start_Time r);
   CInt (STCK_Time r); CInt (Current_Usage r); CStr (Date_Time r)].

(** [jobName in data_file.values]: numpy compares every cell of the
    two-dimensional array with the string and takes the disjunction. *)
Definition in_values (jobName : string) (data_file : list asid_row) : bool :=
  existsb (fun r => existsb (fun c => cell_eq_str c jobName) (values r)) data_file.

(** ** Failures and the order of the stages *)

Inductive error : Type :=
| ResourceNotExist   (* line 92: "The specified resource does not exist." *)
| JobNameNotExist    (* line 116: "The specified job name does not exist." *)
| KeyError           (* line 119: keys[user_key] *)
| IndexError         (* line 126: .values[0] of an empty selection *)
| IntCastError       (* line 129: astype(int) of a NaN *)
| ValueError.        (* line 130: pd.to_datetime of a malformed token *)

(** The spec's NotFound class: the job name is absent from the data, or the
    resource is absent from the capacity table. *)
Definition is_not_found (e : error) : bool :=
  match e with
  | JobNameNotExist | IndexError => true
  | _ => false
  end.

(** The statements of the script that the claims order in time. *)
Inductive stage : Type :=
| ResourceCheck      (* line 91 *)
| JobNameCheck       (* line 115 *)
| CapacityLookup     (* line 126 *)
| FilterRows         (* line 127 *)
| FillCapacity       (* lines 128-129 *)
| ParseDateTime      (* line 130 *)
| LatestTime.        (* line 131 *)

Definition stage_eqb (a b : stage) : bool :=
  match a, b with
  | ResourceCheck, ResourceCheck | JobNameCheck, JobNameCheck
  | CapacityLookup, CapacityLookup | FilterRows, FilterRows
  | FillCapacity, FillCapacity | ParseDateTime, ParseDateTime
  | LatestTime, LatestTime => true
  | _, _ => false
  end.

(** A computation records the stages it entered, in order, and ends in an
    exception or a value; an exception stops the script. *)
Definition M (A : Type) : Type := (list stage * (error + A))%type.

Definition ret {A : Type} (a : A) : M A := ([], inr a).

Definition raise {A : Type} (e : error) : M A := ([], inl e).

Definition enter (s : stage) : M unit := ([s], inr tt).

Definition bind {A B : Type} (m : M A) (f : A -> M B) : M B :=
  match m with
  | (t, inl e) => (t, inl e)
  | (t, inr a) => let (t', r) := f a in ((t ++ t')%list, r)
  end.

Notation "x <- m ;; k" := (bind m (fun x => k))
  (at level 61, m at next level, right associativity).
Notation "m ;;; k" := (bind m (fun _ => k))
  (at level 61, right associativity).

Definition trace {A : Type} (m : M A) : list stage := fst m.
Definition outcome {A : Type} (m : M A) : error + A := snd m.

Definition reached {A : Type} (s : stage) (m : M A) : bool :=
  existsb (stage_eqb s) (trace m).

Definition of_option {A : Type} (e : error) (o : option A) : M A :=
  match o with
  | Some a => ret a
  | None => raise e
  end.

(** A column operation that may raise on a cell raises on the first such
    cell and otherwise yields the whole converted column. *)
Fixpoint map_opt {A B : Type} (f : A -> option B) (l : list A) : option (list B) :=
  match l with
  | [] => Some []
  | a :: l' =>
      match f a with
      | None => None
      | Some b =>
          match map_opt f l' with
          | None => None
          | Some bs => Some (b :: bs)
          end
      end
  end.

(** ** Column updates *)

(** [df['Capacity'] = v] on one row. *)
Definition set_capacity {D C C' : Type} (c : C') (r : row D C) : row D C' :=
  mk_row (Key r) (JobName r) (TaskId r) (Start_Time r) (STCK_Time r)
         (Current_Usage r) (Date_Time r) c.

(** [df['Date_Time'] = v] on one row. *)
Definition set_date_time {D D' C : Type} (d : D') (r : row D C) : row D' C :=
  mk_row (Key r) (JobName r) (TaskId r) (Start_Time r) (STCK_Time r)
         (Current_Usage r) d (Capacity r).

(** Line 128, [fillna(the_capacity)], on one cell: only a NaN is replaced. *)
Definition fillna (the_capacity : Z) (c : option Z) : option Z :=
  match c with
  | None => Some the_capacity
  | Some v => Some v
  end.

(** Line 129, [astype(int)], on one row: a NaN cannot be cast. *)
Definition astype_int {D : Type} (r : row D (option Z)) : option (row D Z) :=
  match Capacity r with
  | None => None
  | Some v => Some (set_capacity v r)
  end.

(** ** get_latest_time (lines 164-177) *)

Definition dict_mem {V : Type} (k : string) (d : list (string * V)) : bool :=
  existsb (fun kv => fst kv =? k) d.

(** [d[k] += 1] for a key that is present. *)
Fixpoint dict_incr (k : string) (d : list (string * nat)) : list (string * nat) :=
  match d with
  | [] => []
  | (k', v) :: d' =>
      if k' =? k then (k', S v) :: d' else (k', v) :: dict_incr k d'
  end.

(** The body of the loop of lines 169-173; a new key goes to the end, as
    a Python dict keeps insertion order. *)
Definition count_time (times_dict : list (string * nat)) (t : string)
  : list (string * nat) :=
  if dict_mem t times_dict then dict_incr t times_dict
  else (times_dict ++ [(t, 1%nat)])%list.

(** One step of [max]: the running maximum [m] is replaced only by a
    strictly greater item; [str] is ordered lexicographically by code
    point, which is [String.compare]. *)
Definition max_step (m y : string) : string := if m <? y then y else m.

(** Python's [max] of an iterable of [str]; it raises on an empty one. *)
Definition py_max (l : list string) : option string :=
  match l with
  | [] => None
  | x :: l' => Some (fold_left max_step l' x)
  end.

Definition get_latest_time {D C : Type} (our_data : list (row D C))
  : list (row D C) :=
  (* the index labels of a frame read by read_csv are distinct, so the dict
     of line 166 holds one start time per row, in row order *)
  let list_data := map Start_Time our_data in
  let times_dict := fold_left count_time list_data [] in
  if (1 <? List.length times_dict)%nat then
    match py_max (map fst times_dict) with
    | Some latest_time =>
        filter (fun r => Start_Time r =? latest_time) our_data
    | None => our_data
    end
  else our_data.

(** ** process_data and the script around it *)

Section Select.

(** [pd.to_datetime(_, format='%Y%m%d%H%M%S')] on one token; [None] is the
    [ValueError] of a token that does not parse.  pandas is not part of the
    repository: the selection is stated for any such parser. *)
Variable to_datetime : string -> option datetime.

(** Line 126: the [Capacity] cells of the rows whose [Resource] is
    [user_key], and the first of them. *)
Definition matching_capacities (capacity_file : list capacity_row)
  (user_key : string) : list Z :=
  map Capacity_of (filter (fun c => Resource c =? user_key) capacity_file).

Definition the_capacity_of (capacity_file : list capacity_row)
  (user_key : string) : option Z :=
  hd_error (matching_capacities capacity_file user_key).

(** Line 127: the boolean mask and the rows it keeps. *)
Definition row_matches {D C : Type} (key jobName : string) (r : row D C) : bool :=
  (Key r =? key) && (JobName r =? jobName).

(** Line 130 on one row. *)
Definition parse_row {C : Type} (r : row string C) : option (row datetime C) :=
  match to_datetime (Date_Time r) with
  | None => None
  | Some d => Some (set_date_time d r)
  end.

(** [process_data] reads the globals [jobName], [key] and [user_key]; they
    are arguments here. *)
Definition process_data (jobName key user_key : string)
  (data_file : list (row string (option Z)))
  (capacity_file : list capacity_row) : M (list (row datetime Z)) :=
  enter CapacityLookup ;;;
  the_capacity <- of_option IndexError (the_capacity_of capacity_file user_key) ;;
  enter FilterRows ;;;
  let the_data := filter (row_matches key jobName) data_file in
  enter FillCapacity ;;;
  let the_data :=
    map (fun r => set_capacity (fillna the_capacity (Capacity r)) r) the_data in
  the_data <- of_option IntCastError (map_opt astype_int the_data) ;;
  enter ParseDateTime ;;;
  the_data <- of_option ValueError (map_opt parse_row the_data) ;;
  enter LatestTime ;;;
  ret (get_latest_time the_data).

(** Lines 111-112. *)
Definition pad_job_name (jobName : string) : string :=
  if (String.length jobName <? COLUMN_CHAR_LEN)%nat
  then ljust COLUMN_CHAR_LEN jobName else jobName.

(** The selection as the script runs it on the two loaded frames and the
    command-line arguments [sys.argv[3]] and [sys.argv[4]]. *)
Definition select (data_file : list asid_row) (capacity_file : list capacity_row)
  (job_name resource : string) : M (list (row datetime Z)) :=
  let jobName := upper job_name in                           (* line 54 *)
  let key := upper resource in                               (* line 56 *)
  enter ResourceCheck ;;;
  (if existsb (String.eqb key) user_keys then ret tt
   else raise ResourceNotExist) ;;;                          (* lines 91-92 *)
  let jobName := pad_job_name jobName in                     (* lines 111-112 *)
  enter JobNameCheck ;;;
  (if in_values jobName data_file then ret tt
   else raise JobNameNotExist) ;;;                           (* lines 115-116 *)
  let user_key := key in                                     (* line 118 *)
  key <- of_option KeyError (dict_get keys user_key) ;;      (* line 119 *)
  let user_key := ljust COLUMN_CHAR_LEN user_key in          (* line 120 *)
  let data_file := map (set_capacity (@None Z)) data_file in (* line 121 *)
  process_data jobName key user_key data_file capacity_file. (* line 180 *)

End Select.

(** ** A fixed-width reading of the timestamp format

    [strptime_YmdHMS] reads a token of exactly fourteen decimal digits as
    year, month, day, hour, minute and second and checks the calendar; on
    such tokens it is what [pd.to_datetime] with [format='%Y%m%d%H%M%S']
    returns.  It is used for the worked example only. *)

Definition digit_of (c : ascii) : option Z :=
  let n := nat_of_ascii c in
  if (48 <=? n)%nat && (n <=? 57)%nat then Some (Z.of_nat (n - 48)) else None.

Fixpoint digits_of (s : string) (acc : Z) : option Z :=
  match s with
  | EmptyString => Some acc
  | String c s' =>
      match digit_of c with
      | None => None
      | Some d => digits_of s' (10 * acc + d)
      end
  end.

Definition field (s : string) (pos len : nat) : option Z :=
  digits_of (substring pos len s) 0.

Definition is_leap (y : Z) : bool :=
  ((y mod 4 =? 0) && negb (y mod 100 =? 0) || (y mod 400 =? 0))%Z.

Definition days_in_month (y m : Z) : Z :=
  if (m =? 2)%Z then (if is_leap y then 29 else 28)
  else if ((m =? 4) || (m =? 6) || (m =? 9) || (m =? 11))%Z then 30 else 31.

Definition strptime_YmdHMS (s : string) : option datetime :=
  if negb (String.length s =? 14)%nat then None else
  match field s 0 4, field s 4 2, field s 6 2,
        field s 8 2, field s 10 2, field s 12 2 with
  | Some y, Some mo, Some d, Some h, Some mi, Some se =>
      if ((1 <=? mo) && (mo <=? 12) && (1 <=? d) && (d <=? days_in_month y mo)
          && (h <=? 23) && (mi <=? 59) && (se <=? 59))%Z
      then Some (mk_datetime y mo d h mi se) else None
  | _, _, _, _, _, _ => None
  end.

(** ** Inputs used in the examples *)

(** The three observation rows and the capacity row of the end-to-end
    example. *)
Definition example_data : list asid_row :=
  [asid "Q" "JOB1    " "T1" "100" 1 500 "20210101000000";
   asid "Q" "JOB1    " "T1" "100" 1 600 "20210101000100";
   asid "Q" "JOB1    " "T2" "200" 2 50 "20210101000200"].

Definition example_capacity : list capacity_row :=
  [mk_capacity "JQE     " 1000].


(** A log in which the queried name occurs as a task id only. *)
Definition taskid_data : list asid_row :=
  [asid "Q" "JOBX    " "JOBY    " "100" 1 500 "20210101000000"].

(** A log in which the job has spool rows but no queue rows. *)
Definition spool_only_data : list asid_row :=
  [asid "S" "JOB1    " "T1" "100" 1 500 "20210101000000"].

(** The Selected Series of the spec: the three columns that are plotted. *)
Definition series (out : list (row datetime Z)) : list (datetime * Z * Z) :=
  map (fun r => (Date_Time r, Current_Usage r, Capacity r)) out.

(** The order in which rows are kept: [Subseq l1 l2] when [l1] is [l2]
    with some rows removed. *)
Inductive Subseq {A : Type} : list A -> list A -> Prop :=
| Subseq_nil : Subseq [] []
| Subseq_skip : forall x l1 l2, Subseq l1 l2 -> Subseq l1 (x :: l2)
| Subseq_keep : forall x l1 l2, Subseq l1 l2 -> Subseq (x :: l1) (x :: l2).

(** What selection does to a source row: every column is carried over, the
    timestamp token is parsed and the capacity cell holds [c]. *)
Definition coerced (to_datetime : string -> option datetime) (c : Z)
  (src : asid_row) (out : row datetime Z) : Prop :=
  Key out = Key src /\ JobName out = JobName src /\ TaskId out = TaskId src /\
  Start_Time out = Start_Time src /\ STCK_Time out = STCK_Time src /\
  Current_Usage out = Current_Usage src /\
  to_datetime (Date_Time src) = Some (Date_Time out) /\
  Capacity out = c.

(** ** Notions used in the statements *)

(** The distinct start times of a frame, in order of first appearance. *)
Definition start_times {D C : Type} (our_data : list (row D C)) : list string :=
  map fst (fold_left count_time (map Start_Time our_data) []).

(** The rows of the loaded frame that line 127 keeps, with the capacity
    column that lines 121, 128 and 129 give them. *)
Definition selected (key jobName : string) (the_capacity : Z)
  (data_file : list asid_row) : list (row string Z) :=
  map (set_capacity the_capacity) (filter (row_matches key jobName) data_file).

(** One mnemonic of the table: either [k] is it, and both sides hold, or
    the comparison in [dict_get] fails as well. *)
Ltac split_on_key k name :=
  destruct (String.eqb_spec k name) as [->|?];
  [ split; [intros _; eexists; reflexivity | intros _; reflexivity]
  | replace (String.eqb name k) with false
      by (symmetry; apply String.eqb_neq; congruence) ].

(** ** The rest of the script

    What follows embeds the parts of the script around the selection: the
    parsing of [sys.argv] (lines 50-82), the checks of the two paths and of
    the resource (lines 85-92), the loading (lines 95-107) and the name of
    the saved file (line 123).  [graph_data] and [print_details] draw and
    print through matplotlib and pandas and are not embedded. *)

(** [str.isspace] on one ASCII character: tab, line feed, vertical tab,
    form feed, carriage return, the four separators 28-31 and the blank. *)
Definition is_space (c : ascii) : bool :=
  let n := nat_of_ascii c in
  ((9 <=? n) && (n <=? 13) || (28 <=? n) && (n <=? 32))%nat.

Fixpoint lstrip (s : string) : string :=
  match s with
  | EmptyString => EmptyString
  | String c s' => if is_space c then lstrip s' else s
  end.

Fixpoint rstrip (s : string) : string :=
  match s with
  | EmptyString => EmptyString
  | String c s' =>
      match rstrip s' with
      | EmptyString => if is_space c then EmptyString else String c EmptyString
      | r => String c r
      end
  end.

(** [s.strip()]: white space is removed at both ends. *)
Definition strip (s : string) : string := lstrip (rstrip s).

(** Line 123, with the globals [jobName] and [user_key] as they stand
    there: both padded. *)
Definition PDF_FILENAME (jobName user_key : string) : string :=
  strip jobName ++ "_" ++ strip user_key ++ "_graph.pdf".

(** The globals that lines 50-65 set from [sys.argv]. *)
Record arguments : Type := mk_arguments {
  data_filepath : string;
  capacity_filepath : string;
  jobName : string;
  key : string;
  verbose : bool
}.

(** The three ways out of lines 50-82: the run goes on, the help text is
    printed and the script exits, or the exception of line 82 is raised. *)
Inductive invocation : Type :=
| Run (a : arguments)
| Help
| ArgumentsNotCorrect.

Definition parse_args (argv : list string) : invocation :=
  match argv with
  | [_; a1; a2; a3; a4] =>
      Run (mk_arguments a1 a2 (upper a3) (upper a4) false)
  | [_; a1; a2; a3; a4; a5] =>
      if (a5 =? "-v") || (a5 =? "-verbose")
      then Run (mk_arguments a1 a2 (upper a3) (upper a4) true)
      else ArgumentsNotCorrect
  | [_; a1] =>
      if (a1 =? "-h") || (a1 =? "-help") then Help else ArgumentsNotCorrect
  | _ => ArgumentsNotCorrect
  end.

(** The accesses to the file system, in the order in which they happen. *)
Inductive access : Type :=
| PathExists (path : string)   (* os.path.exists, lines 85 and 88 *)
| ReadCsv (path : string).     (* pd.read_csv, lines 95 and 102 *)

Definition is_read (a : access) : bool :=
  match a with
  | ReadCsv _ => true
  | PathExists _ => false
  end.

Inductive script_error : Type :=
| UsageError             (* line 82 *)
| DataFileNotExist       (* line 86 *)
| CapacityFileNotExist   (* line 89 *)
| ReadCsvError           (* lines 95-107: read_csv or a converter raises *)
| Selection (e : error). (* lines 92, 116 and process_data *)

(** How the script stands after line 180. *)
Inductive finish : Type :=
| SysExit                                  (* line 80 *)
| Raised (e : script_error)
| Selected (pdf : string) (the_data : list (row datetime Z)).

Section Script.

Variable to_datetime : string -> option datetime.

(** The file system: [os.path.exists], and [pd.read_csv] with the column
    names and converters of lines 95-107, [None] when it raises. *)
Variable path_exists : string -> bool.
Variable read_data : string -> option (list asid_row).
Variable read_capacity : string -> option (list capacity_row).

(** Lines 111-123 and 180, on the loaded frames. *)
Definition after_load (a : arguments) (data_file : list asid_row)
  (capacity_file : list capacity_row)
  : M (string * list (row datetime Z)) :=
  let jobName := pad_job_name (jobName a) in                 (* lines 111-112 *)
  enter JobNameCheck ;;;
  (if in_values jobName data_file then ret tt
   else raise JobNameNotExist) ;;;                           (* lines 115-116 *)
  let user_key := key a in                                   (* line 118 *)
  key <- of_option KeyError (dict_get keys user_key) ;;      (* line 119 *)
  let user_key := ljust COLUMN_CHAR_LEN user_key in          (* line 120 *)
  let data_file := map (set_capacity (@None Z)) data_file in (* line 121 *)
  let pdf := PDF_FILENAME jobName user_key in                (* line 123 *)
  the_data <-
    process_data to_datetime jobName key user_key data_file capacity_file ;;
  ret (pdf, the_data).                                       (* line 180 *)

(** The script from its first line to line 180. *)
Definition script (argv : list string) : list access * finish :=
  match parse_args argv with
  | Help => ([], SysExit)
  | ArgumentsNotCorrect => ([], Raised UsageError)
  | Run a =>
      let d := data_filepath a in
      let c := capacity_filepath a in
      if negb (path_exists d) then
        ([PathExists d], Raised DataFileNotExist)
      else if negb (path_exists c) then
        ([PathExists d; PathExists c], Raised CapacityFileNotExist)
      else if negb (existsb (String.eqb (key a)) user_keys) then
        ([PathExists d; PathExists c], Raised (Selection ResourceNotExist))
      else
        match read_data d with
        | None => ([PathExists d; PathExists c; ReadCsv d], Raised ReadCsvError)
        | Some data_file =>
            match read_capacity c with
            | None =>
                ([PathExists d; PathExists c; ReadCsv d; ReadCsv c],
                 Raised ReadCsvError)
            | Some capacity_file =>
                ([PathExists d; PathExists c; ReadCsv d; ReadCsv c],
                 match outcome (after_load a data_file capacity_file) with
                 | inl e => Raised (Selection e)
                 | inr (pdf, the_data) => Selected pdf the_data
                 end)
            end
        end
  end.

End Script.

(** The dict of lines 168-173 for a frame: start time to number of rows. *)
Definition times_dict_of {D C : Type} (our_data : list (row D C))
  : list (string * nat) :=
  fold_left count_time (map Start_Time our_data) [].

(** The string cells of a loaded row. *)
Definition str_cells (r : asid_row) : list string :=
  [Key r; JobName r; TaskId r; Start_Time r; Date_Time r].

(** A file system for the examples: two files, the frames of the
    end-to-end example. *)
Definition example_exists (path : string) : bool :=
  (path =? "SY1.data") || (path =? "Capacity.data").

Definition example_read_data (path : string) : option (list asid_row) :=
  if path =? "SY1.data" then Some example_data else None.

Definition example_read_capacity (path : string) : option (list capacity_row) :=
  if path =? "Capacity.data" then Some example_capacity else None.

(** * Properties *)

(** ** The order on start-time tokens *)

Lemma leb_refl (s : string) : (s <=? s) = true.
Proof.
  destruct (String.leb_total s s); assumption.
Qed.

Lemma ltb_leb (a b : string) : (a <? b) = true -> (a <=? b) = true.
Proof.
  unfold String.ltb, String.leb. destruct (a ?= b); congruence.
Qed.

Lemma ltb_false_leb (a b : string) : (a <? b) = false -> (b <=? a) = true.
Proof.
  unfold String.ltb, String.leb. rewrite (String.compare_antisym b a).
  destruct (a ?= b); simpl; congruence.
Qed.

Lemma leb_trans (a b c : string) :
  (a <=? b) = true -> (b <=? c) = true -> (a <=? c) = true.
Proof.
  unfold String.leb. intros Hab Hbc.
  destruct (a ?= b) eqn:Eab; try discriminate.
  - apply String.compare_eq_iff in Eab. subst. assumption.
  - destruct (b ?= c) eqn:Ebc; try discriminate.
    + apply String.compare_eq_iff in Ebc. subst. rewrite Eab. reflexivity.
    + apply String_as_OT.cmp_lt in Eab, Ebc.
      pose proof (String_as_OT.lt_trans _ _ _ Eab Ebc) as Hac.
      apply String_as_OT.cmp_lt in Hac. unfold String_as_OT.cmp in Hac.
      rewrite Hac. reflexivity.
Qed.

(** ** [max] of the distinct start times *)

Lemma fold_max_ge_init (l : list string) (x : string) :
  (x <=? fold_left max_step l x) = true.
Proof.
  revert x. induction l as [|y l IH]; intros x; simpl.
  - apply leb_refl.
  - unfold max_step at 2. destruct (x <? y) eqn:E.
    + eapply leb_trans; [apply ltb_leb; exact E | apply IH].
    + apply IH.
Qed.

Lemma fold_max_upper (l : list string) (x y : string) :
  In y l -> (y <=? fold_left max_step l x) = true.
Proof.
  revert x. induction l as [|z l IH]; intros x Hin; simpl.
  - destruct Hin.
  - destruct Hin as [->|Hin].
    + unfold max_step at 2. destruct (x <? y) eqn:E.
      * apply fold_max_ge_init.
      * eapply leb_trans; [apply ltb_false_leb; exact E | apply fold_max_ge_init].
    + apply IH. assumption.
Qed.

Lemma fold_max_in (l : list string) (x : string) :
  fold_left max_step l x = x \/ In (fold_left max_step l x) l.
Proof.
  revert x. induction l as [|z l IH]; intros x; simpl.
  - left. reflexivity.
  - destruct (IH (max_step x z)) as [H|H].
    + rewrite H. unfold max_step. destruct (x <? z); auto.
    + right. right. assumption.
Qed.

Lemma py_max_spec (l : list string) (m : string) :
  py_max l = Some m ->
  In m l /\ forall y, In y l -> (y <=? m) = true.
Proof.
  destruct l as [|x l]; simpl; [discriminate|].
  intros H. injection H as <-. split.
  - destruct (fold_max_in l x) as [->|Hin]; auto.
  - intros y [->|Hy]; [apply fold_max_ge_init | apply fold_max_upper; assumption].
Qed.

Lemma py_max_some (l : list string) : l <> [] -> exists m, py_max l = Some m.
Proof.
  destruct l; [congruence | intros _; eexists; reflexivity].
Qed.

(** ** The keys of [times_dict] *)

Lemma dict_incr_keys (k : string) (d : list (string * nat)) :
  map fst (dict_incr k d) = map fst d.
Proof.
  induction d as [|[k' v] d IH]; simpl; [reflexivity|].
  destruct (k' =? k); simpl; [reflexivity | rewrite IH; reflexivity].
Qed.

Lemma dict_mem_true {V : Type} (k : string) (d : list (string * V)) :
  dict_mem k d = true <-> In k (map fst d).
Proof.
  unfold dict_mem. rewrite existsb_exists, in_map_iff. split.
  - intros [kv [Hin Heq]]. apply String.eqb_eq in Heq. eauto.
  - intros [kv [Heq Hin]]. exists kv. split; [assumption|].
    apply String.eqb_eq. assumption.
Qed.

Lemma count_time_keys (d : list (string * nat)) (t : string) :
  map fst (count_time d t) =
  if dict_mem t d then map fst d else (map fst d ++ [t])%list.
Proof.
  unfold count_time. destruct (dict_mem t d).
  - apply dict_incr_keys.
  - rewrite map_app. reflexivity.
Qed.

Lemma count_time_In (d : list (string * nat)) (t k : string) :
  In k (map fst (count_time d t)) <-> k = t \/ In k (map fst d).
Proof.
  rewrite count_time_keys. destruct (dict_mem t d) eqn:E.
  - apply dict_mem_true in E. split; [auto|]. intros [->|H]; assumption.
  - rewrite in_app_iff. simpl. intuition.
Qed.

Lemma count_time_NoDup (d : list (string * nat)) (t : string) :
  NoDup (map fst d) -> NoDup (map fst (count_time d t)).
Proof.
  intros Hd. rewrite count_time_keys. destruct (dict_mem t d) eqn:E; [assumption|].
  assert (Hn : ~ In t (map fst d)).
  { intros Hin. apply dict_mem_true in Hin. congruence. }
  clear E. induction (map fst d) as [|a l IH]; simpl.
  - constructor; [intros [] | constructor].
  - inversion Hd as [|? ? Ha Hl]; subst. constructor.
    + rewrite in_app_iff. simpl. intros [H|[H|[]]]; [auto|].
      subst. apply Hn. left. reflexivity.
    + apply IH; [assumption|]. intros H. apply Hn. right. assumption.
Qed.

Lemma times_dict_In (l : list string) (d : list (string * nat)) (k : string) :
  In k (map fst (fold_left count_time l d)) <-> In k l \/ In k (map fst d).
Proof.
  revert d. induction l as [|t l IH]; intros d; simpl.
  - intuition.
  - rewrite IH, count_time_In. intuition.
Qed.

Lemma times_dict_NoDup (l : list string) (d : list (string * nat)) :
  NoDup (map fst d) -> NoDup (map fst (fold_left count_time l d)).
Proof.
  revert d. induction l as [|t l IH]; intros d Hd; simpl; [assumption|].
  apply IH, count_time_NoDup, Hd.
Qed.

Lemma start_times_In {D C : Type} (our_data : list (row D C)) (k : string) :
  In k (start_times our_data) <-> exists r, In r our_data /\ Start_Time r = k.
Proof.
  unfold start_times. rewrite times_dict_In, in_map_iff. simpl.
  split.
  - intros [[r [H1 H2]]|[]]. eauto.
  - intros [r [H1 H2]]. left. eauto.
Qed.

Lemma start_times_NoDup {D C : Type} (our_data : list (row D C)) :
  NoDup (start_times our_data).
Proof.
  apply times_dict_NoDup. constructor.
Qed.

Lemma start_times_length {D C : Type} (our_data : list (row D C)) :
  List.length (fold_left count_time (map Start_Time our_data) []) =
  List.length (start_times our_data).
Proof.
  unfold start_times. rewrite length_map. reflexivity.
Qed.

(** More than one key exactly when two rows differ in their start time. *)
Lemma start_times_many {D C : Type} (our_data : list (row D C)) :
  (1 <? List.length (start_times our_data))%nat = true <->
  exists r1 r2, In r1 our_data /\ In r2 our_data /\ Start_Time r1 <> Start_Time r2.
Proof.
  pose proof (start_times_NoDup our_data) as Hnd.
  pose proof (start_times_In our_data) as Hin.
  rewrite Nat.ltb_lt. split.
  - destruct (start_times our_data) as [|a [|b l]]; simpl; try lia.
    intros _.
    assert (Ia : exists r, In r our_data /\ Start_Time r = a)
      by (apply Hin; simpl; auto).
    assert (Ib : exists r, In r our_data /\ Start_Time r = b)
      by (apply Hin; simpl; auto).
    destruct Ia as [r1 [H1 E1]]. destruct Ib as [r2 [H2 E2]].
    exists r1, r2. split; [assumption|]. split; [assumption|].
    intros Heq. assert (Hab : a = b) by congruence.
    inversion Hnd as [|? ? Ha _]. apply Ha. left. symmetry. exact Hab.
  - intros [r1 [r2 [H1 [H2 Hne]]]].
    assert (I1 : In (Start_Time r1) (start_times our_data)) by (apply Hin; eauto).
    assert (I2 : In (Start_Time r2) (start_times our_data)) by (apply Hin; eauto).
    destruct (start_times our_data) as [|a [|b l]]; simpl in *;
      [destruct I1 | | lia].
    destruct I1 as [E1|[]], I2 as [E2|[]]. congruence.
Qed.

(** ** What [get_latest_time] returns *)

Lemma get_latest_time_unfold {D C : Type} (our_data : list (row D C)) :
  get_latest_time our_data =
  if (1 <? List.length (start_times our_data))%nat then
    match py_max (start_times our_data) with
    | Some latest_time => filter (fun r => Start_Time r =? latest_time) our_data
    | None => our_data
    end
  else our_data.
Proof.
  unfold get_latest_time. rewrite start_times_length. reflexivity.
Qed.

Lemma filter_all {A : Type} (p : A -> bool) (l : list A) :
  (forall x, In x l -> p x = true) -> filter p l = l.
Proof.
  induction l as [|a l IH]; simpl; intros H; [reflexivity|].
  rewrite (H a) by auto. f_equal. apply IH. auto.
Qed.

(** Whatever the number of cohorts, a non-empty frame is cut down to the
    rows of its greatest start time. *)
Lemma get_latest_time_is_filter {D C : Type} (our_data : list (row D C)) :
  our_data <> [] ->
  exists m,
    py_max (start_times our_data) = Some m /\
    In m (map Start_Time our_data) /\
    (forall r, In r our_data -> (Start_Time r <=? m) = true) /\
    get_latest_time our_data =
      filter (fun r => Start_Time r =? m) our_data.
Proof.
  intros Hne.
  assert (Hk : start_times our_data <> []).
  { destruct our_data as [|r l]; [congruence|].
    intros E. assert (H : In (Start_Time r) (start_times (r :: l))).
    { apply start_times_In. exists r. simpl. auto. }
    rewrite E in H. destruct H. }
  destruct (py_max_some _ Hk) as [m Hm]. exists m.
  destruct (py_max_spec _ _ Hm) as [Hin Hub].
  apply start_times_In in Hin. destruct Hin as [rm [Hrm Em]].
  split; [assumption|]. split; [|split].
  - apply in_map_iff. eauto.
  - intros r Hr. apply Hub. apply start_times_In. eauto.
  - rewrite get_latest_time_unfold, Hm.
    destruct (1 <? List.length (start_times our_data))%nat eqn:E; [reflexivity|].
    symmetry. apply filter_all. intros r Hr. apply String.eqb_eq.
    destruct (string_dec (Start_Time r) m) as [|Hd]; [assumption|].
    exfalso. assert (T : (1 <? List.length (start_times our_data))%nat = true).
    { apply start_times_many. exists r, rm. repeat split; congruence. }
    congruence.
Qed.

Lemma get_latest_time_same {D C : Type} (our_data : list (row D C)) :
  (forall r1 r2, In r1 our_data -> In r2 our_data ->
                 Start_Time r1 = Start_Time r2) ->
  get_latest_time our_data = our_data.
Proof.
  intros Hsame. rewrite get_latest_time_unfold.
  destruct (1 <? List.length (start_times our_data))%nat eqn:E; [|reflexivity].
  apply start_times_many in E. destruct E as [r1 [r2 [H1 [H2 Hne]]]].
  exfalso. apply Hne. apply Hsame; assumption.
Qed.

Lemma get_latest_time_nil {D C : Type} : get_latest_time (@nil (row D C)) = [].
Proof. reflexivity. Qed.




(** ** Rows are only removed *)

Lemma Subseq_refl {A : Type} (l : list A) : Subseq l l.
Proof.
  induction l; [apply Subseq_nil | apply Subseq_keep; assumption].
Qed.

Lemma Subseq_filter {A : Type} (p : A -> bool) (l : list A) :
  Subseq (filter p l) l.
Proof.
  induction l as [|a l IH]; simpl; [constructor|].
  destruct (p a); [apply Subseq_keep | apply Subseq_skip]; assumption.
Qed.

Lemma Subseq_trans {A : Type} (l1 l2 l3 : list A) :
  Subseq l1 l2 -> Subseq l2 l3 -> Subseq l1 l3.
Proof.
  intros H12 H23. revert l1 H12.
  induction H23 as [|x l2 l3 H IH|x l2 l3 H IH]; intros l1 H12.
  - assumption.
  - constructor. apply IH. assumption.
  - inversion H12; subst.
    + apply Subseq_skip. apply IH. assumption.
    + apply Subseq_keep. apply IH. assumption.
Qed.


Lemma Subseq_get_latest_time {D C : Type} (our_data : list (row D C)) :
  Subseq (get_latest_time our_data) our_data.
Proof.
  rewrite get_latest_time_unfold.
  destruct (1 <? _)%nat; [|apply Subseq_refl].
  destruct (py_max _); [apply Subseq_filter | apply Subseq_refl].
Qed.

(** A row-wise relation survives the removal of rows on both sides. *)
Lemma Forall2_Subseq {A B : Type} (R : A -> B -> Prop) (l : list A)
  (l' out : list B) :
  Forall2 R l l' -> Subseq out l' ->
  exists kept, Subseq kept l /\ Forall2 R kept out.
Proof.
  intros HF HS. revert l HF.
  induction HS as [|x o l' H IH|x o l' H IH]; intros l HF.
  - inversion HF; subst. exists []. split; constructor.
  - inversion HF as [|a ? la ? Ha Hl]; subst.
    destruct (IH la Hl) as [kept [Hk Hf]].
    exists kept. split; [apply Subseq_skip; assumption | assumption].
  - inversion HF as [|a ? la ? Ha Hl]; subst.
    destruct (IH la Hl) as [kept [Hk Hf]].
    exists (a :: kept). split; [apply Subseq_keep | constructor]; assumption.
Qed.

(** ** The script, stage by stage *)

Section SelectFacts.

Variable to_datetime : string -> option datetime.

(** Lines 128-129 never raise: after [fillna] no cell is a NaN. *)
Lemma fill_then_cast {D : Type} (c : Z) (l : list (row D (option Z))) :
  map_opt astype_int
    (map (fun r => set_capacity (fillna c (Capacity r)) r) l) =
  Some (map (fun r => set_capacity
                        (match Capacity r with Some v => v | None => c end) r) l).
Proof.
  induction l as [|r l IH]; simpl; [reflexivity|].
  rewrite IH. unfold astype_int. simpl.
  destruct (Capacity r); reflexivity.
Qed.

Lemma filter_nan_column (key jobName : string) (data_file : list asid_row) :
  filter (row_matches key jobName) (map (set_capacity (@None Z)) data_file) =
  map (set_capacity (@None Z)) (filter (row_matches key jobName) data_file).
Proof.
  induction data_file as [|r l IH]; [reflexivity|].
  cbn [map filter].
  change (row_matches key jobName (set_capacity (@None Z) r))
    with (row_matches key jobName r).
  destruct (row_matches key jobName r); cbn [map]; rewrite IH; reflexivity.
Qed.

Lemma fill_nan_column (c : Z) (l : list asid_row) :
  map (fun r => set_capacity
                  (match Capacity r with Some v => v | None => c end) r)
      (map (set_capacity (@None Z)) l) =
  map (set_capacity c) l.
Proof.
  rewrite map_map. reflexivity.
Qed.

Lemma process_data_eq (jobName key user_key : string)
  (data_file : list asid_row) (capacity_file : list capacity_row) :
  process_data to_datetime jobName key user_key
    (map (set_capacity (@None Z)) data_file) capacity_file =
  match the_capacity_of capacity_file user_key with
  | None => ([CapacityLookup], inl IndexError)
  | Some c =>
      match map_opt (parse_row to_datetime) (selected key jobName c data_file) with
      | None =>
          ([CapacityLookup; FilterRows; FillCapacity; ParseDateTime],
           inl ValueError)
      | Some parsed =>
          ([CapacityLookup; FilterRows; FillCapacity; ParseDateTime; LatestTime],
           inr (get_latest_time parsed))
      end
  end.
Proof.
  unfold process_data, selected.
  destruct (the_capacity_of capacity_file user_key) as [c|]; [|reflexivity].
  rewrite filter_nan_column. cbn [of_option enter ret raise bind app].
  rewrite fill_then_cast, fill_nan_column.
  cbn [of_option enter ret raise bind app].
  destruct (map_opt (parse_row to_datetime) _); reflexivity.
Qed.

(** The storage code of a resource mnemonic exists exactly for the four
    mnemonics of [user_keys]. *)
Lemma keys_user_keys (k : string) :
  existsb (String.eqb k) user_keys = true <->
  exists code, dict_get keys k = Some code.
Proof.
  unfold user_keys, keys. cbn [existsb dict_get].
  split_on_key k "JQE". split_on_key k "SPOOL".
  split_on_key k "BERT". split_on_key k "JOE".
  split; [discriminate | intros [c H]; discriminate].
Qed.

Lemma select_eq (data_file : list asid_row) (capacity_file : list capacity_row)
  (job_name resource : string) :
  select to_datetime data_file capacity_file job_name resource =
  match dict_get keys (upper resource) with
  | None => ([ResourceCheck], inl ResourceNotExist)
  | Some key =>
      if in_values (pad_job_name (upper job_name)) data_file then
        let (t, r) :=
          process_data to_datetime (pad_job_name (upper job_name)) key
            (ljust COLUMN_CHAR_LEN (upper resource))
            (map (set_capacity (@None Z)) data_file) capacity_file in
        ((ResourceCheck :: JobNameCheck :: t)%list, r)
      else ([ResourceCheck; JobNameCheck], inl JobNameNotExist)
  end.
Proof.
  unfold select.
  destruct (existsb (String.eqb (upper resource)) user_keys) eqn:E.
  - apply keys_user_keys in E. destruct E as [code Hc]. rewrite Hc.
    destruct (in_values _ data_file); [|reflexivity].
    simpl. destruct (process_data _ _ _ _ _ _). reflexivity.
  - destruct (dict_get keys (upper resource)) eqn:Hc; [|reflexivity].
    assert (T : existsb (String.eqb (upper resource)) user_keys = true)
      by (apply keys_user_keys; eauto).
    congruence.
Qed.

(** What a successful run went through. *)
Lemma select_inr (data_file : list asid_row) (capacity_file : list capacity_row)
  (job_name resource : string) (out : list (row datetime Z)) :
  outcome (select to_datetime data_file capacity_file job_name resource) = inr out ->
  exists code c parsed,
    dict_get keys (upper resource) = Some code /\
    the_capacity_of capacity_file (ljust COLUMN_CHAR_LEN (upper resource)) = Some c /\
    map_opt (parse_row to_datetime)
      (selected code (pad_job_name (upper job_name)) c data_file) = Some parsed /\
    out = get_latest_time parsed.
Proof.
  rewrite select_eq.
  destruct (dict_get keys (upper resource)) as [code|]; [|discriminate].
  destruct (in_values _ data_file); [|discriminate].
  rewrite process_data_eq.
  destruct (the_capacity_of capacity_file _) as [c|]; [|discriminate].
  destruct (map_opt _ _) as [parsed|] eqn:E; [|discriminate].
  unfold outcome. simpl. intros H. injection H as <-.
  exists code, c, parsed. repeat split; assumption.
Qed.

(** A successful run, from its ingredients. *)
Lemma select_run (data_file : list asid_row) (capacity_file : list capacity_row)
  (job_name resource code : string) (c : Z) (parsed : list (row datetime Z)) :
  dict_get keys (upper resource) = Some code ->
  in_values (pad_job_name (upper job_name)) data_file = true ->
  the_capacity_of capacity_file (ljust COLUMN_CHAR_LEN (upper resource)) = Some c ->
  map_opt (parse_row to_datetime)
    (selected code (pad_job_name (upper job_name)) c data_file) = Some parsed ->
  select to_datetime data_file capacity_file job_name resource =
  ([ResourceCheck; JobNameCheck; CapacityLookup; FilterRows; FillCapacity;
    ParseDateTime; LatestTime], inr (get_latest_time parsed)).
Proof.
  intros Hk Hj Hc Hp. rewrite select_eq, Hk, Hj, process_data_eq, Hc, Hp.
  reflexivity.
Qed.

Lemma parse_rows_coerced (key jobName : string) (c : Z)
  (data_file : list asid_row) (parsed : list (row datetime Z)) :
  map_opt (parse_row to_datetime) (selected key jobName c data_file) = Some parsed ->
  Forall2 (coerced to_datetime c)
    (filter (row_matches key jobName) data_file) parsed.
Proof.
  unfold selected.
  generalize (filter (row_matches key jobName) data_file) as l.
  intros l. revert parsed. induction l as [|r l IH]; intros parsed; simpl.
  - intros H. injection H as <-. constructor.
  - unfold parse_row at 1. simpl.
    destruct (to_datetime (Date_Time r)) as [d|] eqn:Ed; [|discriminate].
    destruct (map_opt _ _) as [ps|]; [|discriminate].
    intros H. injection H as <-. constructor.
    + unfold coerced. simpl. repeat split; try reflexivity. assumption.
    + apply IH. reflexivity.
Qed.

Lemma parse_rows_total {C : Type} (l : list (row string C)) :
  (forall r, In r l -> to_datetime (Date_Time r) <> None) ->
  exists parsed, map_opt (parse_row to_datetime) l = Some parsed.
Proof.
  induction l as [|r l IH]; intros H; simpl.
  - eexists. reflexivity.
  - unfold parse_row at 1.
    destruct (to_datetime (Date_Time r)) as [d|] eqn:Ed.
    + destruct IH as [ps Hps]; [intros; apply H; right; assumption|].
      rewrite Hps. eexists. reflexivity.
    + exfalso. apply (H r); [left; reflexivity | assumption].
Qed.



(** A row with the padded job name in its [JobName] column passes the
    test of line 115. *)
Lemma in_values_JobName (jobName : string) (data_file : list asid_row) r :
  In r data_file -> JobName r = jobName -> in_values jobName data_file = true.
Proof.
  intros Hin Hj. unfold in_values. apply existsb_exists. exists r.
  split; [assumption|]. unfold values. cbn [existsb cell_eq_str].
  rewrite Hj, String.eqb_refl. rewrite orb_true_r. reflexivity.
Qed.

End SelectFacts.

(** ** Normalisation of the job name *)

Lemma upper_ascii_idem (c : ascii) : upper_ascii (upper_ascii c) = upper_ascii c.
Proof.
  destruct c as [[] [] [] [] [] [] [] []]; reflexivity.
Qed.

Lemma upper_idem (s : string) : upper (upper s) = upper s.
Proof.
  induction s as [|c s IH]; simpl; [reflexivity|].
  rewrite upper_ascii_idem, IH. reflexivity.
Qed.

Lemma upper_length (s : string) : String.length (upper s) = String.length s.
Proof.
  induction s as [|c s IH]; simpl; [reflexivity | rewrite IH; reflexivity].
Qed.

Lemma upper_spaces (n : nat) : upper (spaces n) = spaces n.
Proof.
  induction n as [|n IH]; simpl; [reflexivity | rewrite IH; reflexivity].
Qed.

Lemma upper_append (s t : string) : upper (s ++ t) = upper s ++ upper t.
Proof.
  induction s as [|c s IH]; simpl; [reflexivity | rewrite IH; reflexivity].
Qed.

Lemma append_length (s t : string) :
  String.length (s ++ t) = (String.length s + String.length t)%nat.
Proof.
  induction s as [|c s IH]; simpl; [reflexivity | rewrite IH; reflexivity].
Qed.

Lemma spaces_length (n : nat) : String.length (spaces n) = n.
Proof.
  induction n as [|n IH]; simpl; [reflexivity | rewrite IH; reflexivity].
Qed.

Lemma pad_job_name_length (s : string) :
  (COLUMN_CHAR_LEN <= String.length (pad_job_name s))%nat.
Proof.
  unfold pad_job_name, ljust.
  destruct (String.length s <? COLUMN_CHAR_LEN)%nat eqn:E.
  - apply Nat.ltb_lt in E. rewrite append_length, spaces_length. lia.
  - apply Nat.ltb_ge in E. assumption.
Qed.

Lemma pad_job_name_long (s : string) :
  (COLUMN_CHAR_LEN <= String.length s)%nat -> pad_job_name s = s.
Proof.
  intros H. unfold pad_job_name.
  destruct (String.length s <? COLUMN_CHAR_LEN)%nat eqn:E; [|reflexivity].
  apply Nat.ltb_lt in E. lia.
Qed.

Lemma upper_pad_job_name (s : string) :
  upper (pad_job_name s) = pad_job_name (upper s).
Proof.
  unfold pad_job_name, ljust. rewrite upper_length.
  destruct (String.length s <? COLUMN_CHAR_LEN)%nat; [|reflexivity].
  rewrite upper_append, upper_spaces. reflexivity.
Qed.

(** Normalising a normalised job name changes nothing. *)
Lemma normalise_idem (s : string) :
  pad_job_name (upper (pad_job_name (upper s))) = pad_job_name (upper s).
Proof.
  rewrite upper_pad_job_name, upper_idem.
  apply pad_job_name_long, pad_job_name_length.
Qed.

(** * The claims *)

(** C1. On the end-to-end example (three queue rows of JOB1, two of the
    cohort that started at "100" and one of the cohort that started at
    "200", and the capacity row of JQE), selecting job "JOB1" and resource
    "JQE" returns exactly one row: the row of the "200" cohort, with
    date_time 2021-01-01T00:02:00, current_usage 50 and capacity 1000. *)
Theorem end_to_end_example :
  select strptime_YmdHMS example_data example_capacity "JOB1" "JQE" =
    ([ResourceCheck; JobNameCheck; CapacityLookup; FilterRows; FillCapacity;
      ParseDateTime; LatestTime],
     inr [mk_row "Q" "JOB1    " "T2" "200" 2 50
                 (mk_datetime 2021 1 1 0 2 0) 1000%Z]) /\
  (exists out,
     outcome (select strptime_YmdHMS example_data example_capacity "JOB1" "JQE")
       = inr out /\
     series out = [(mk_datetime 2021 1 1 0 2 0, 50%Z, 1000%Z)]) /\
  start_times example_data = ["100"; "200"] /\
  py_max (start_times example_data) = Some "200".
Proof.
  split; [vm_compute; reflexivity|]. split; [|split; vm_compute; reflexivity].
  eexists. split; vm_compute; reflexivity.
Qed.



(** C3. When the filtered rows hold more than one distinct start time,
    cohort deduplication keeps exactly the rows whose start time is the
    greatest one in the order of the raw tokens, all of them, in place;
    when all rows share one start time, every row is kept. *)
Theorem latest_cohort_is_kept {D C : Type} (our_data : list (row D C)) :
  ((exists r1 r2, In r1 our_data /\ In r2 our_data /\
                  Start_Time r1 <> Start_Time r2) ->
   exists latest_time,
     In latest_time (map Start_Time our_data) /\
     (forall r, In r our_data -> (Start_Time r <=? latest_time) = true) /\
     get_latest_time our_data =
       filter (fun r => Start_Time r =? latest_time) our_data /\
     (forall r, In r (get_latest_time our_data) <->
                In r our_data /\ Start_Time r = latest_time)) /\
  ((forall r1 r2, In r1 our_data -> In r2 our_data ->
                  Start_Time r1 = Start_Time r2) ->
   get_latest_time our_data = our_data).
Proof.
  split.
  - intros [r1 [_ [H1 _]]].
    destruct (get_latest_time_is_filter our_data) as [m [_ [Hin [Hub Heq]]]].
    { intros E. rewrite E in H1. destruct H1. }
    exists m. repeat split; try assumption.
    + rewrite Heq in H. apply filter_In in H. apply H.
    + rewrite Heq in H. apply filter_In in H. apply String.eqb_eq, H.
    + intros [Hr Hs]. rewrite Heq. apply filter_In. split; [assumption|].
      apply String.eqb_eq. assumption.
  - apply get_latest_time_same.
Qed.

Lemma latest_cohort_is_kept_witness :
  (exists latest_time,
     In latest_time (map Start_Time example_data) /\
     (forall r, In r example_data -> (Start_Time r <=? latest_time) = true) /\
     get_latest_time example_data =
       filter (fun r => Start_Time r =? latest_time) example_data /\
     (forall r, In r (get_latest_time example_data) <->
                In r example_data /\ Start_Time r = latest_time)) /\
  get_latest_time spool_only_data = spool_only_data.
Proof.
  split.
  - apply (proj1 (latest_cohort_is_kept example_data)).
    exists (asid "Q" "JOB1    " "T1" "100" 1 500 "20210101000000"),
           (asid "Q" "JOB1    " "T2" "200" 2 50 "20210101000200").
    split; [simpl; auto|]. split; [simpl; auto|]. simpl. discriminate.
  - apply (proj2 (latest_cohort_is_kept spool_only_data)).
    intros r1 r2 H1 H2. simpl in H1, H2.
    destruct H1 as [<-|[]], H2 as [<-|[]]. reflexivity.
Defined.


(** C5. The job name of the query is matched without regard to case and
    to trailing padding: selecting "job3" and selecting "JOB3    " give the
    same result on every pair of inputs, and in general a job name and its
    upper-cased, blank-padded form are interchangeable. *)
Theorem job_name_case_and_width (to_datetime : string -> option datetime)
  (data_file : list asid_row) (capacity_file : list capacity_row)
  (resource : string) :
  select to_datetime data_file capacity_file "job3" resource =
  select to_datetime data_file capacity_file "JOB3    " resource /\
  pad_job_name (upper "job3") = "JOB3    " /\
  forall job_name,
    select to_datetime data_file capacity_file job_name resource =
    select to_datetime data_file capacity_file
      (pad_job_name (upper job_name)) resource.
Proof.
  assert (G : forall job_name,
             select to_datetime data_file capacity_file job_name resource =
             select to_datetime data_file capacity_file
               (pad_job_name (upper job_name)) resource).
  { intros job_name. rewrite !select_eq, normalise_idem. reflexivity. }
  split; [|split].
  - rewrite (G "job3"). reflexivity.
  - reflexivity.
  - exact G.
Qed.



(** C7. The test of line 115 looks for the padded job name in every
    column of the frame.  On a log whose only row belongs to job
    "JOBX    " and has the task id "JOBY    ", the query for job "JOBY"
    passes the test although no row has that job name; the script goes on
    to the capacity lookup and select returns the empty series.  When the
    padded name occurs in no cell at all, select does fail with the
    job-name error before the capacity lookup. *)
Theorem job_name_test_reads_every_column :
  (forall r, In r taskid_data -> JobName r <> pad_job_name (upper "JOBY")) /\
  select strptime_YmdHMS taskid_data example_capacity "JOBY" "JQE" =
    ([ResourceCheck; JobNameCheck; CapacityLookup; FilterRows; FillCapacity;
      ParseDateTime; LatestTime], inr []) /\
  (forall to_datetime data_file capacity_file job_name resource,
     in_values (pad_job_name (upper job_name)) data_file = false ->
     existsb (String.eqb (upper resource)) user_keys = true ->
     select to_datetime data_file capacity_file job_name resource =
       ([ResourceCheck; JobNameCheck], inl JobNameNotExist)).
Proof.
  split; [|split].
  - intros r [<-|[]]. vm_compute. discriminate.
  - vm_compute. reflexivity.
  - intros to_datetime data_file capacity_file job_name resource Hj Hk.
    apply keys_user_keys in Hk. destruct Hk as [code Hk].
    rewrite select_eq, Hk, Hj. reflexivity.
Qed.

(** C8. For a valid resource mnemonic, when no row of the capacity table
    carries the padded mnemonic, select fails with an error of the
    NotFound class, and it fails without having reached the filtering of
    the observation rows by key and job name. *)
Theorem missing_capacity_fails_before_filtering
  (to_datetime : string -> option datetime)
  (data_file : list asid_row) (capacity_file : list capacity_row)
  (job_name resource : string) :
  existsb (String.eqb (upper resource)) user_keys = true ->
  (forall c, In c capacity_file ->
             Resource c <> ljust COLUMN_CHAR_LEN (upper resource)) ->
  (exists e,
     outcome (select to_datetime data_file capacity_file job_name resource)
       = inl e /\ is_not_found e = true) /\
  reached FilterRows
    (select to_datetime data_file capacity_file job_name resource) = false /\
  (in_values (pad_job_name (upper job_name)) data_file = true ->
   select to_datetime data_file capacity_file job_name resource =
     ([ResourceCheck; JobNameCheck; CapacityLookup], inl IndexError)).
Proof.
  intros Hk Hcap.
  apply keys_user_keys in Hk. destruct Hk as [code Hk].
  assert (Hnone : the_capacity_of capacity_file
                    (ljust COLUMN_CHAR_LEN (upper resource)) = None).
  { unfold the_capacity_of, matching_capacities.
    induction capacity_file as [|c l IH]; [reflexivity|]. simpl.
    assert (Hc : (Resource c =? ljust COLUMN_CHAR_LEN (upper resource)) = false).
    { apply String.eqb_neq. apply Hcap. left. reflexivity. }
    rewrite Hc. apply IH. intros c' Hc'. apply Hcap. right. assumption. }
  rewrite select_eq, Hk, process_data_eq, Hnone.
  destruct (in_values _ data_file).
  - split; [|split].
    + exists IndexError. split; reflexivity.
    + reflexivity.
    + reflexivity.
  - split; [|split].
    + exists JobNameNotExist. split; reflexivity.
    + reflexivity.
    + discriminate.
Qed.

Lemma missing_capacity_fails_before_filtering_witness :
  (exists e,
     outcome (select strptime_YmdHMS example_data example_capacity "JOB1" "BERT")
       = inl e /\ is_not_found e = true) /\
  reached FilterRows
    (select strptime_YmdHMS example_data example_capacity "JOB1" "BERT") = false /\
  (in_values (pad_job_name (upper "JOB1")) example_data = true ->
   select strptime_YmdHMS example_data example_capacity "JOB1" "BERT" =
     ([ResourceCheck; JobNameCheck; CapacityLookup], inl IndexError)).
Proof.
  apply (missing_capacity_fails_before_filtering strptime_YmdHMS example_data
           example_capacity "JOB1" "BERT").
  - reflexivity.
  - intros c [<-|[]]. vm_compute. discriminate.
Defined.

(** C9, as stated, fails: a job that has rows for another resource only
    passes the job-name test, the filter by key and job name is empty, and
    select returns the empty series without failing. *)
Lemma empty_filter_does_not_fail :
  ~ (forall to_datetime data_file capacity_file job_name resource code,
       dict_get keys (upper resource) = Some code ->
       filter (row_matches code (pad_job_name (upper job_name))) data_file = [] ->
       exists e,
         outcome (select to_datetime data_file capacity_file job_name resource)
           = inl e).
Proof.
  intros H.
  destruct (H strptime_YmdHMS spool_only_data example_capacity "JOB1" "JQE" "Q")
    as [e He]; [reflexivity | reflexivity |].
  vm_compute in He. discriminate.
Qed.

(** C9, amended.  When the filter by storage code and padded job name is
    empty, select does not fail on that account: with a valid resource, a
    row of the data carrying the padded job name and a capacity row for the
    resource, it goes through every stage and returns the empty series. *)
Theorem empty_filter_returns_empty_series
  (to_datetime : string -> option datetime)
  (data_file : list asid_row) (capacity_file : list capacity_row)
  (job_name resource code : string) (c : Z) :
  dict_get keys (upper resource) = Some code ->
  (exists r, In r data_file /\ JobName r = pad_job_name (upper job_name)) ->
  the_capacity_of capacity_file (ljust COLUMN_CHAR_LEN (upper resource)) = Some c ->
  filter (row_matches code (pad_job_name (upper job_name))) data_file = [] ->
  select to_datetime data_file capacity_file job_name resource =
    ([ResourceCheck; JobNameCheck; CapacityLookup; FilterRows; FillCapacity;
      ParseDateTime; LatestTime], inr []).
Proof.
  intros Hk [r [Hin Hj]] Hc Hf.
  apply (select_run to_datetime data_file capacity_file job_name resource
           code c []); try assumption.
  - apply in_values_JobName with (r := r); assumption.
  - unfold selected. rewrite Hf. reflexivity.
Qed.

Lemma empty_filter_returns_empty_series_witness :
  select strptime_YmdHMS spool_only_data example_capacity "JOB1" "JQE" =
    ([ResourceCheck; JobNameCheck; CapacityLookup; FilterRows; FillCapacity;
      ParseDateTime; LatestTime], inr []).
Proof.
  apply (empty_filter_returns_empty_series strptime_YmdHMS spool_only_data
           example_capacity "JOB1" "JQE" "Q" 1000).
  - reflexivity.
  - exists (asid "S" "JOB1    " "T1" "100" 1 500 "20210101000000").
    split; [simpl; auto | reflexivity].
  - reflexivity.
  - reflexivity.
Defined.

(** C10. Selection keeps the source order: the rows of a returned series
    are rows of the observation input, coerced, in the order in which they
    stand there; filtering and cohort deduplication only remove rows. *)
Theorem selection_keeps_source_order (to_datetime : string -> option datetime)
  (data_file : list asid_row) (capacity_file : list capacity_row)
  (job_name resource : string) (out : list (row datetime Z)) :
  outcome (select to_datetime data_file capacity_file job_name resource) = inr out ->
  exists kept c,
    Subseq kept data_file /\ Forall2 (coerced to_datetime c) kept out.
Proof.
  intros H. apply select_inr in H.
  destruct H as [code [c [parsed [Hk [Hc [Hp ->]]]]]].
  pose proof (parse_rows_coerced _ _ _ _ _ _ Hp) as HF.
  destruct (Forall2_Subseq _ _ _ _ HF (Subseq_get_latest_time parsed))
    as [kept [Hs Hf]].
  exists kept, c. split; [|assumption].
  eapply Subseq_trans; [exact Hs | apply Subseq_filter].
Qed.

Lemma selection_keeps_source_order_witness :
  exists kept c,
    Subseq kept example_data /\
    Forall2 (coerced strptime_YmdHMS c) kept
      [mk_row "Q" "JOB1    " "T2" "200" 2 50 (mk_datetime 2021 1 1 0 2 0) 1000%Z].
Proof.
  apply (selection_keeps_source_order strptime_YmdHMS example_data
           example_capacity "JOB1" "JQE").
  vm_compute. reflexivity.
Defined.

(** * Further properties of the script *)

(** ** Padding and stripping *)

Lemma append_empty_r (s : string) : s ++ "" = s.
Proof.
  induction s as [|c s IH]; simpl; [reflexivity | rewrite IH; reflexivity].
Qed.

Lemma prefix_append (s t : string) : String.prefix s (s ++ t) = true.
Proof.
  induction s as [|c s IH]; simpl.
  - destruct t; reflexivity.
  - destruct (ascii_dec c c) as [_|N]; [exact IH | congruence].
Qed.

Lemma rstrip_spaces (n : nat) : rstrip (spaces n) = "".
Proof.
  induction n as [|n IH]; simpl; [reflexivity | rewrite IH; reflexivity].
Qed.

Lemma rstrip_append_blank (s t : string) :
  rstrip t = "" -> rstrip (s ++ t) = rstrip s.
Proof.
  intros Ht. induction s as [|c s IH]; simpl.
  - exact Ht.
  - rewrite IH. reflexivity.
Qed.

Lemma strip_mnemonic (k : string) :
  existsb (String.eqb k) user_keys = true -> strip k = k.
Proof.
  unfold user_keys. cbn [existsb]. rewrite !orb_true_iff.
  intros [H|[H|[H|[H|H]]]]; try discriminate;
    apply String.eqb_eq in H; subst; reflexivity.
Qed.

Lemma ljust_length (width : nat) (s : string) :
  String.length (ljust width s) = Nat.max width (String.length s).
Proof.
  unfold ljust. rewrite append_length, spaces_length. lia.
Qed.

Lemma ljust_long (width : nat) (s : string) :
  (width <= String.length s)%nat -> ljust width s = s.
Proof.
  intros H. unfold ljust.
  replace (width - String.length s)%nat with 0%nat by lia.
  apply append_empty_r.
Qed.

Lemma pad_job_name_ljust (s : string) :
  pad_job_name s = ljust COLUMN_CHAR_LEN s.
Proof.
  unfold pad_job_name.
  destruct (String.length s <? COLUMN_CHAR_LEN)%nat eqn:L; [reflexivity|].
  apply Nat.ltb_ge in L. symmetry. apply ljust_long. assumption.
Qed.

Lemma strip_ljust_eq (width : nat) (s : string) :
  strip (ljust width s) = strip s.
Proof.
  unfold strip, ljust. rewrite rstrip_append_blank; [reflexivity|].
  apply rstrip_spaces.
Qed.

(** X1. [ljust] never truncates: the result has the length of the longer
    of the width and the string, it starts with the string, and a string
    that already fills the width is returned as it is. *)
Theorem ljust_never_truncates (width : nat) (s : string) :
  String.length (ljust width s) = Nat.max width (String.length s) /\
  String.prefix s (ljust width s) = true /\
  ((width <= String.length s)%nat -> ljust width s = s).
Proof.
  split; [apply ljust_length|]. split; [|apply ljust_long].
  unfold ljust. apply prefix_append.
Qed.

(** X2. The guard of line 111 changes nothing: for every job name, lines
    111-112 compute [ljust] at the column width, so a name of up to eight
    characters becomes exactly eight characters long and a longer one is
    kept whole. *)
Theorem pad_job_name_is_ljust (s : string) :
  pad_job_name s = ljust COLUMN_CHAR_LEN s /\
  String.length (pad_job_name s) = Nat.max COLUMN_CHAR_LEN (String.length s).
Proof.
  split; [apply pad_job_name_ljust|].
  rewrite pad_job_name_ljust. apply ljust_length.
Qed.

(** X3. Stripping undoes the padding: [strip] of a padded string is
    [strip] of the string, whatever the width; a padded mnemonic of
    [user_keys] strips back to the mnemonic. *)
Theorem strip_undoes_ljust (width : nat) (s : string) :
  strip (ljust width s) = strip s /\
  (existsb (String.eqb s) user_keys = true -> strip (ljust width s) = s).
Proof.
  split; [apply strip_ljust_eq|].
  intros H. rewrite strip_ljust_eq. apply strip_mnemonic. assumption.
Qed.

(** X4. The blanks of the padding never reach the name of the saved file:
    for a resource of [user_keys], line 123 yields the stripped upper-case
    job name, an underscore, the upper-case mnemonic and "_graph.pdf". *)
Theorem pdf_filename_has_no_padding (job_name resource : string) :
  existsb (String.eqb (upper resource)) user_keys = true ->
  PDF_FILENAME (pad_job_name (upper job_name))
               (ljust COLUMN_CHAR_LEN (upper resource)) =
  strip (upper job_name) ++ "_" ++ upper resource ++ "_graph.pdf".
Proof.
  intros Hk. unfold PDF_FILENAME.
  rewrite pad_job_name_ljust, !strip_ljust_eq, (strip_mnemonic _ Hk).
  reflexivity.
Qed.

Lemma pdf_filename_has_no_padding_witness :
  PDF_FILENAME (pad_job_name (upper "Job3"))
               (ljust COLUMN_CHAR_LEN (upper "spool")) =
  strip (upper "Job3") ++ "_" ++ upper "spool" ++ "_graph.pdf".
Proof.
  apply (pdf_filename_has_no_padding "Job3" "spool"). reflexivity.
Defined.

(** ** The command line *)

(** X5. The command line is read without regard to the case of the job
    name and of the resource: replacing both by their upper-case forms
    leaves the parsed arguments unchanged, with or without a sixth
    argument. *)
Theorem parse_args_ignores_case (prog d c job_name resource : string)
  (rest : list string) :
  parse_args (prog :: d :: c :: job_name :: resource :: rest) =
  parse_args (prog :: d :: c :: upper job_name :: upper resource :: rest).
Proof.
  destruct rest as [|f [|g rest]]; simpl; rewrite ?upper_idem; reflexivity.
Qed.

(** X6. The three shapes of the command line: help is given exactly for
    one argument that is "-h" or "-help"; a run is verbose exactly for five
    arguments followed by "-v" or "-verbose"; a run is quiet exactly for
    four arguments; everything else raises the exception of line 82. *)
Theorem parse_args_shapes (argv : list string) :
  (parse_args argv = Help <->
   exists prog, argv = [prog; "-h"] \/ argv = [prog; "-help"]) /\
  ((exists a, parse_args argv = Run a /\ verbose a = true) <->
   exists prog d c j r f,
     argv = [prog; d; c; j; r; f] /\ (f = "-v" \/ f = "-verbose")) /\
  ((exists a, parse_args argv = Run a /\ verbose a = false) <->
   List.length argv = 5%nat) /\
  (forall a, parse_args argv = Run a ->
     data_filepath a = nth 1 argv "" /\
     capacity_filepath a = nth 2 argv "" /\
     jobName a = upper (nth 3 argv "") /\
     key a = upper (nth 4 argv "")).
Proof.
  destruct argv as [|a0 [|a1 [|a2 [|a3 [|a4 [|a5 [|a6 rest]]]]]]]; simpl.
  all: try (split; [|split; [|split]];
            [ split; [discriminate | intros [p [H|H]]; discriminate]
            | split; [intros [a [H _]]; discriminate
                     | intros [p [d [c [j [r [f [H _]]]]]]]; discriminate]
            | split; [intros [a [H _]]; discriminate | discriminate]
            | intros a H; discriminate ]).
  - (* one argument after the program name *)
    destruct (String.eqb_spec a1 "-h") as [->|Nh]; simpl.
    + split; [|split; [|split]].
      * split; [intros _; exists a0; left; reflexivity | reflexivity].
      * split; [intros [a [H _]]; discriminate
               | intros [p [d [c [j [r [f [H _]]]]]]]; discriminate].
      * split; [intros [a [H _]]; discriminate | discriminate].
      * intros a H; discriminate.
    + destruct (String.eqb_spec a1 "-help") as [->|Nl]; simpl.
      * split; [|split; [|split]].
        -- split; [intros _; exists a0; right; reflexivity | reflexivity].
        -- split; [intros [a [H _]]; discriminate
                  | intros [p [d [c [j [r [f [H _]]]]]]]; discriminate].
        -- split; [intros [a [H _]]; discriminate | discriminate].
        -- intros a H; discriminate.
      * split; [|split; [|split]].
        -- split; [discriminate | intros [p [H|H]]; congruence].
        -- split; [intros [a [H _]]; discriminate
                  | intros [p [d [c [j [r [f [H _]]]]]]]; discriminate].
        -- split; [intros [a [H _]]; discriminate | discriminate].
        -- intros a H; discriminate.
  - (* four arguments *)
    split; [|split; [|split]].
    + split; [discriminate | intros [p [H|H]]; discriminate].
    + split; [intros [a [H V]]; injection H as <-; discriminate
             | intros [p [d [c [j [r [f [H _]]]]]]]; discriminate].
    + split; [reflexivity | intros _; eexists; split; reflexivity].
    + intros a H. injection H as <-. repeat split.
  - (* five arguments *)
    destruct (String.eqb_spec a5 "-v") as [->|Nv]; simpl.
    + split; [|split; [|split]].
      * split; [discriminate | intros [p [H|H]]; discriminate].
      * split; [intros _; exists a0, a1, a2, a3, a4, "-v"; auto
               | intros _; eexists; split; reflexivity].
      * split; [intros [a [H V]]; injection H as <-; discriminate
               | discriminate].
      * intros a H. injection H as <-. repeat split.
    + destruct (String.eqb_spec a5 "-verbose") as [->|Nl]; simpl.
      * split; [|split; [|split]].
        -- split; [discriminate | intros [p [H|H]]; discriminate].
        -- split; [intros _; exists a0, a1, a2, a3, a4, "-verbose"; auto
                  | intros _; eexists; split; reflexivity].
        -- split; [intros [a [H V]]; injection H as <-; discriminate
                  | discriminate].
        -- intros a H. injection H as <-. repeat split.
      * split; [|split; [|split]].
        -- split; [discriminate | intros [p [H|H]]; discriminate].
        -- split; [intros [a [H _]]; discriminate|].
           intros [p [d [c [j [r [f [H [F|F]]]]]]]];
             injection H as _ _ _ _ _ E; congruence.
        -- split; [intros [a [H _]]; discriminate | discriminate].
        -- intros a H; discriminate.
Qed.

(** ** The script around the selection *)

Section ScriptFacts.

Variable to_datetime : string -> option datetime.
Variable path_exists : string -> bool.
Variable read_data : string -> option (list asid_row).
Variable read_capacity : string -> option (list capacity_row).





(** X8. For a command line that asks for a run, the script stops with the
    missing-data-file exception exactly when the first path does not
    exist, and then it has looked at nothing but that path. *)
Theorem data_file_is_checked_first (argv : list string) (a : arguments) :
  parse_args argv = Run a ->
  (snd (script to_datetime path_exists read_data read_capacity argv) =
     Raised DataFileNotExist <->
   path_exists (data_filepath a) = false) /\
  (path_exists (data_filepath a) = false ->
   fst (script to_datetime path_exists read_data read_capacity argv) =
     [PathExists (data_filepath a)]).
Proof.
  intros Hp. unfold script. rewrite Hp.
  destruct (path_exists (data_filepath a)); cbn [negb].
  - split; [|discriminate]. split; [|discriminate].
    destruct (path_exists (capacity_filepath a)); cbn [negb snd];
      [|discriminate].
    destruct (existsb _ user_keys); cbn [negb snd]; [|discriminate].
    destruct (read_data _); [|discriminate].
    destruct (read_capacity _); [|discriminate].
    cbn [snd]. destruct (outcome _) as [e|[pdf d]]; discriminate.
  - split; [split; reflexivity | reflexivity].
Qed.

(** X9. The script reads a file only for a command line that asks for a
    run, after both paths were found to exist and the resource was found
    in [user_keys]: help, a malformed command line, a missing file and an
    unknown resource all end before anything is read. *)
Theorem nothing_is_read_before_the_checks (argv : list string) :
  existsb is_read
    (fst (script to_datetime path_exists read_data read_capacity argv)) = true ->
  exists a,
    parse_args argv = Run a /\
    path_exists (data_filepath a) = true /\
    path_exists (capacity_filepath a) = true /\
    existsb (String.eqb (key a)) user_keys = true.
Proof.
  unfold script. destruct (parse_args argv) as [a| |] eqn:Hp; try discriminate.
  destruct (path_exists (data_filepath a)) eqn:Hd; cbn [negb]; [|discriminate].
  destruct (path_exists (capacity_filepath a)) eqn:Hc; cbn [negb];
    [|discriminate].
  destruct (existsb _ user_keys) eqn:Hk; cbn [negb]; [|discriminate].
  intros _. exists a. repeat split; assumption.
Qed.

End ScriptFacts.


Lemma data_file_is_checked_first_witness :
  (snd (script strptime_YmdHMS example_exists example_read_data
          example_read_capacity
          ["Graph_JRE_Job.py"; "missing.data"; "Capacity.data"; "job1"; "nope"]) =
     Raised DataFileNotExist <->
   example_exists "missing.data" = false) /\
  (example_exists "missing.data" = false ->
   fst (script strptime_YmdHMS example_exists example_read_data
          example_read_capacity
          ["Graph_JRE_Job.py"; "missing.data"; "Capacity.data"; "job1"; "nope"]) =
     [PathExists "missing.data"]).
Proof.
  apply (data_file_is_checked_first strptime_YmdHMS example_exists
           example_read_data example_read_capacity
           ["Graph_JRE_Job.py"; "missing.data"; "Capacity.data"; "job1"; "nope"]
           (mk_arguments "missing.data" "Capacity.data" "JOB1" "NOPE" false)).
  reflexivity.
Defined.

Lemma nothing_is_read_before_the_checks_witness :
  exists a,
    parse_args ["Graph_JRE_Job.py"; "SY1.data"; "Capacity.data"; "job1"; "jqe"]
      = Run a /\
    example_exists (data_filepath a) = true /\
    example_exists (capacity_filepath a) = true /\
    existsb (String.eqb (key a)) user_keys = true.
Proof.
  apply (nothing_is_read_before_the_checks strptime_YmdHMS example_exists
           example_read_data example_read_capacity
           ["Graph_JRE_Job.py"; "SY1.data"; "Capacity.data"; "job1"; "jqe"]).
  reflexivity.
Defined.

(** ** The histogram of start times *)

Lemma dict_get_incr (t k : string) (d : list (string * nat)) :
  dict_get (dict_incr t d) k =
  if t =? k then option_map S (dict_get d k) else dict_get d k.
Proof.
  induction d as [|[k' v] d IH]; simpl.
  - destruct (t =? k); reflexivity.
  - destruct (String.eqb_spec k' t) as [->|Nt]; simpl.
    + destruct (String.eqb_spec t k) as [->|Nk]; simpl; reflexivity.
    + destruct (String.eqb_spec k' k) as [->|Nk]; simpl.
      * destruct (String.eqb_spec t k) as [->|_]; [congruence | reflexivity].
      * exact IH.
Qed.

Lemma dict_get_app_new (t k : string) (d : list (string * nat)) :
  dict_get (d ++ [(t, 1%nat)]) k =
  match dict_get d k with
  | Some v => Some v
  | None => if t =? k then Some 1%nat else None
  end.
Proof.
  induction d as [|[k' v] d IH]; simpl; [reflexivity|].
  destruct (k' =? k); [reflexivity | exact IH].
Qed.

Lemma dict_mem_get (t : string) (d : list (string * nat)) :
  dict_mem t d = match dict_get d t with Some _ => true | None => false end.
Proof.
  unfold dict_mem. induction d as [|[k' v] d IH]; simpl; [reflexivity|].
  destruct (k' =? t); [reflexivity | exact IH].
Qed.

Lemma count_time_get (d : list (string * nat)) (t k : string) :
  dict_get (count_time d t) k =
  if t =? k
  then Some (S (match dict_get d k with Some v => v | None => 0%nat end))
  else dict_get d k.
Proof.
  unfold count_time. rewrite dict_mem_get.
  destruct (String.eqb_spec t k) as [->|N].
  - destruct (dict_get d k) as [v|] eqn:E.
    + rewrite dict_get_incr, String.eqb_refl, E. reflexivity.
    + rewrite dict_get_app_new, E, String.eqb_refl. reflexivity.
  - destruct (dict_get d t) as [v|] eqn:E.
    + rewrite dict_get_incr. apply String.eqb_neq in N. rewrite N. reflexivity.
    + rewrite dict_get_app_new. apply String.eqb_neq in N. rewrite N.
      destruct (dict_get d k); reflexivity.
Qed.

Lemma times_dict_get (l : list string) (d : list (string * nat)) (k : string) :
  dict_get (fold_left count_time l d) k =
  match dict_get d k with
  | Some v => Some (v + count_occ string_dec l k)%nat
  | None =>
      if (count_occ string_dec l k =? 0)%nat then None
      else Some (count_occ string_dec l k)
  end.
Proof.
  revert d. induction l as [|t l IH]; intros d.
  - simpl. destruct (dict_get d k); [f_equal; lia | reflexivity].
  - cbn [fold_left]. rewrite IH, count_time_get. cbn [count_occ].
    destruct (string_dec t k) as [->|N].
    + rewrite String.eqb_refl. destruct (dict_get d k) as [v|].
      * f_equal. lia.
      * reflexivity.
    + apply String.eqb_neq in N. rewrite N. reflexivity.
Qed.

Lemma count_time_total (d : list (string * nat)) (t : string) :
  list_sum (map snd (count_time d t)) = S (list_sum (map snd d)).
Proof.
  unfold count_time. destruct (dict_mem t d) eqn:E.
  - induction d as [|[k' v] d IH]; [discriminate|].
    unfold dict_mem in E. simpl in E |- *.
    destruct (k' =? t); simpl; [reflexivity|].
    rewrite IH by exact E. lia.
  - rewrite map_app, list_sum_app. simpl. lia.
Qed.

Lemma times_dict_total (l : list string) (d : list (string * nat)) :
  list_sum (map snd (fold_left count_time l d)) =
  (list_sum (map snd d) + List.length l)%nat.
Proof.
  revert d. induction l as [|t l IH]; intros d; simpl; [lia|].
  rewrite IH, count_time_total. lia.
Qed.

(** X10. The loop of lines 169-173 builds the histogram of the start
    times: a start time is a key exactly when some row carries it, its
    entry is the number of rows that carry it, and the entries add up to
    the number of rows. *)
Theorem times_dict_is_histogram {D C : Type} (our_data : list (row D C)) :
  (forall k,
     dict_get (times_dict_of our_data) k =
     let n := count_occ string_dec (map Start_Time our_data) k in
     if (n =? 0)%nat then None else Some n) /\
  list_sum (map snd (times_dict_of our_data)) = List.length our_data /\
  NoDup (map fst (times_dict_of our_data)).
Proof.
  unfold times_dict_of. split; [|split].
  - intros k. rewrite times_dict_get. reflexivity.
  - rewrite times_dict_total, length_map. reflexivity.
  - apply times_dict_NoDup. constructor.
Qed.

(** ** More on the selection *)

(** X11. Which rows [get_latest_time] keeps depends only on which rows the
    frame holds, not on their order or multiplicity: two frames with the
    same rows keep the same rows. *)
Theorem latest_cohort_ignores_order {D C : Type} (d d' : list (row D C))
  (r : row D C) :
  (forall x, In x d <-> In x d') ->
  (In r (get_latest_time d) <-> In r (get_latest_time d')).
Proof.
  intros Hsame. revert r.
  destruct d as [|x d0].
  { destruct d' as [|y d0']; [intros r; reflexivity|].
    exfalso. apply (proj2 (Hsame y)). left. reflexivity. }
  destruct d' as [|y d0'].
  { exfalso. apply (proj1 (Hsame x)). left. reflexivity. }
  remember (x :: d0) as l eqn:El. remember (y :: d0') as l' eqn:El'.
  destruct (get_latest_time_is_filter l) as [m [_ [Hin [Hub Heq]]]];
    [subst; discriminate|].
  destruct (get_latest_time_is_filter l') as [m' [_ [Hin' [Hub' Heq']]]];
    [subst; discriminate|].
  assert (Em : m = m').
  { apply in_map_iff in Hin, Hin'.
    destruct Hin as [rm [E1 I1]], Hin' as [rm' [E2 I2]].
    apply String.leb_antisym.
    - rewrite <- E1. apply Hub'. apply Hsame. assumption.
    - rewrite <- E2. apply Hub. apply Hsame. assumption. }
  subst m'. intros r. rewrite Heq, Heq', !filter_In, Hsame. reflexivity.
Qed.

Lemma latest_cohort_ignores_order_witness :
  In (asid "Q" "JOB1    " "T2" "200" 2 50 "20210101000200")
     (get_latest_time example_data) <->
  In (asid "Q" "JOB1    " "T2" "200" 2 50 "20210101000200")
     (get_latest_time (rev example_data ++ example_data)).
Proof.
  apply (latest_cohort_ignores_order example_data
           (rev example_data ++ example_data)).
  intros x. simpl. tauto.
Defined.

Lemma parse_rows_fail (to_datetime : string -> option datetime) {C : Type}
  (l : list (row string C)) (r : row string C) :
  In r l -> to_datetime (Date_Time r) = None ->
  map_opt (parse_row to_datetime) l = None.
Proof.
  intros Hin Hr. induction l as [|x l IH]; [destruct Hin|].
  simpl. destruct Hin as [->|Hin].
  - unfold parse_row at 1. rewrite Hr. reflexivity.
  - rewrite (IH Hin). destruct (parse_row to_datetime x); reflexivity.
Qed.


Lemma selected_In (code jobName : string) (c : Z) (data_file : list asid_row)
  (r : row string Z) :
  In r (selected code jobName c data_file) <->
  exists src, In src data_file /\ row_matches code jobName src = true /\
              r = set_capacity c src.
Proof.
  unfold selected. rewrite in_map_iff. split.
  - intros [src [E H]]. apply filter_In in H. destruct H. exists src. auto.
  - intros [src [H1 [H2 E]]]. exists src. split; [auto|].
    apply filter_In. auto.
Qed.

(** X12. One malformed timestamp among the rows matched by key and job
    name stops the whole selection with the [ValueError] of line 130, also
    when the row belongs to a cohort that deduplication would drop: the
    timestamps are parsed before [get_latest_time] runs. *)
Theorem malformed_timestamp_stops_selection
  (to_datetime : string -> option datetime)
  (data_file : list asid_row) (capacity_file : list capacity_row)
  (job_name resource code : string) (c : Z) (bad : asid_row) :
  dict_get keys (upper resource) = Some code ->
  the_capacity_of capacity_file (ljust COLUMN_CHAR_LEN (upper resource)) = Some c ->
  In bad data_file ->
  row_matches code (pad_job_name (upper job_name)) bad = true ->
  to_datetime (Date_Time bad) = None ->
  select to_datetime data_file capacity_file job_name resource =
    ([ResourceCheck; JobNameCheck; CapacityLookup; FilterRows; FillCapacity;
      ParseDateTime], inl ValueError).
Proof.
  intros Hk Hc Hin Hm Hbad.
  assert (Hj : in_values (pad_job_name (upper job_name)) data_file = true).
  { apply in_values_JobName with (r := bad); [assumption|].
    unfold row_matches in Hm. apply andb_prop in Hm.
    apply String.eqb_eq. apply Hm. }
  rewrite select_eq, Hk, Hj, process_data_eq, Hc.
  rewrite (parse_rows_fail to_datetime _ (set_capacity c bad)).
  - reflexivity.
  - apply selected_In. exists bad. auto.
  - exact Hbad.
Qed.

Lemma malformed_timestamp_stops_selection_witness :
  select strptime_YmdHMS
    (asid "Q" "JOB1    " "T0" "050" 0 10 "2021-01-01" :: example_data)
    example_capacity "JOB1" "JQE" =
    ([ResourceCheck; JobNameCheck; CapacityLookup; FilterRows; FillCapacity;
      ParseDateTime], inl ValueError).
Proof.
  apply (malformed_timestamp_stops_selection strptime_YmdHMS _ example_capacity
           "JOB1" "JQE" "Q" 1000
           (asid "Q" "JOB1    " "T0" "050" 0 10 "2021-01-01")).
  - reflexivity.
  - reflexivity.
  - left. reflexivity.
  - reflexivity.
  - reflexivity.
Defined.



(** X14. The selection never ends in the [KeyError] of line 119 nor in a
    failed cast on line 129: the test of line 91 leaves only mnemonics
    that are keys of [keys], and line 128 leaves no NaN to cast. *)
Theorem select_never_raises_KeyError (to_datetime : string -> option datetime)
  (data_file : list asid_row) (capacity_file : list capacity_row)
  (job_name resource : string) :
  outcome (select to_datetime data_file capacity_file job_name resource)
    <> inl KeyError /\
  outcome (select to_datetime data_file capacity_file job_name resource)
    <> inl IntCastError.
Proof.
  rewrite select_eq.
  destruct (dict_get keys (upper resource)) as [code|]; [|split; discriminate].
  destruct (in_values _ data_file); [|split; discriminate].
  rewrite process_data_eq.
  destruct (the_capacity_of capacity_file _) as [c|]; [|split; discriminate].
  destruct (map_opt _ _); split; discriminate.
Qed.

(** X15. The resource is matched without regard to case: a mnemonic and
    its upper-case form give the same run, so "spool" and "SPOOL" select
    the same rows with the same capacity. *)
Theorem resource_case_is_ignored (to_datetime : string -> option datetime)
  (data_file : list asid_row) (capacity_file : list capacity_row)
  (job_name resource : string) :
  select to_datetime data_file capacity_file job_name resource =
  select to_datetime data_file capacity_file job_name (upper resource) /\
  select to_datetime data_file capacity_file job_name "spool" =
  select to_datetime data_file capacity_file job_name "SPOOL".
Proof.
  assert (G : forall r,
             select to_datetime data_file capacity_file job_name r =
             select to_datetime data_file capacity_file job_name (upper r)).
  { intros r. rewrite !select_eq, upper_idem. reflexivity. }
  split; [apply G|]. rewrite (G "spool"). reflexivity.
Qed.

(** X16. The test of line 115 succeeds exactly when some string cell of
    some row (key, job name, task id, start time or timestamp token)
    equals the padded name; the two integer columns never match. *)
Theorem in_values_reads_string_cells (jobName : string)
  (data_file : list asid_row) :
  in_values jobName data_file = true <->
  exists r, In r data_file /\ In jobName (str_cells r).
Proof.
  unfold in_values. rewrite existsb_exists. split.
  - intros [r [Hin Hc]]. exists r. split; [assumption|].
    unfold values in Hc. cbn [existsb cell_eq_str] in Hc.
    unfold str_cells. simpl. rewrite !orb_true_iff in Hc.
    decompose [or] Hc; try discriminate;
      match goal with
      | E : (_ =? _) = true |- _ => apply String.eqb_eq in E; auto 6
      end.
  - intros [r [Hin Hc]]. exists r. split; [assumption|].
    unfold values. cbn [existsb cell_eq_str].
    unfold str_cells in Hc. simpl in Hc.
    destruct Hc as [E|[E|[E|[E|[E|[]]]]]]; rewrite E, String.eqb_refl;
      rewrite ?orb_true_r; reflexivity.
Qed.




(** X18. The selection returns rows exactly when the resource is one of
    [user_keys], the test of line 115 passes, the capacity table has a row
    for the padded mnemonic and every timestamp of the rows matched by key
    and job name parses; in every other case it ends in an exception. *)
Theorem select_succeeds_iff (to_datetime : string -> option datetime)
  (data_file : list asid_row) (capacity_file : list capacity_row)
  (job_name resource : string) :
  (exists out,
     outcome (select to_datetime data_file capacity_file job_name resource)
       = inr out) <->
  (exists code,
     dict_get keys (upper resource) = Some code /\
     in_values (pad_job_name (upper job_name)) data_file = true /\
     the_capacity_of capacity_file (ljust COLUMN_CHAR_LEN (upper resource))
       <> None /\
     forall r, In r data_file ->
               row_matches code (pad_job_name (upper job_name)) r = true ->
               to_datetime (Date_Time r) <> None).
Proof.
  rewrite select_eq. split.
  - intros [out H].
    destruct (dict_get keys (upper resource)) as [code|]; [|discriminate].
    destruct (in_values _ data_file) eqn:Hj; [|discriminate].
    rewrite process_data_eq in H.
    destruct (the_capacity_of capacity_file _) as [c|] eqn:Hc; [|discriminate].
    destruct (map_opt _ _) as [parsed|] eqn:Hp; [|discriminate].
    exists code. repeat split; try assumption; try discriminate.
    intros r Hr Hm Hbad.
    rewrite (parse_rows_fail to_datetime _ (set_capacity c r)) in Hp.
    + discriminate.
    + apply selected_In. exists r. auto.
    + exact Hbad.
  - intros [code [Hk [Hj [Hc Hdt]]]]. rewrite Hk, Hj, process_data_eq.
    destruct (the_capacity_of capacity_file _) as [c|]; [|congruence].
    destruct (parse_rows_total to_datetime
                (selected code (pad_job_name (upper job_name)) c data_file))
      as [parsed Hp].
    { intros r Hr. apply selected_In in Hr.
      destruct Hr as [src [Hs [Hm ->]]]. simpl. apply Hdt; assumption. }
    rewrite Hp. eexists. reflexivity.
Qed.
